(** * SPA fallback routing of [server.py]

    A shallow embedding of [SPAHTTPHandler.do_GET] and of the library
    calls it is built from, followed by the properties of the request
    router.

    Request targets are strings of 8-bit characters: [http.server] decodes
    the request line as ISO-8859-1, so every character of [self.path] is
    one [ascii]. *)

From Stdlib Require Import String Ascii List Bool Arith Lia.
Import ListNotations.
Open Scope string_scope.

(** ** Python string operations used by the handler and by [urlparse] *)

Module PyStr.

(** [s[n:]] *)
Fixpoint drop (n : nat) (s : string) : string :=
  match n, s with
  | O, _ => s
  | S _, EmptyString => EmptyString
  | S n', String _ s' => drop n' s'
  end.

(** [s[:n]] *)
Fixpoint take (n : nat) (s : string) : string :=
  match n, s with
  | O, _ => EmptyString
  | S _, EmptyString => EmptyString
  | S n', String a s' => String a (take n' s')
  end.

(** [s.find(c)] for a one-character needle; [None] stands for [-1]. *)
Fixpoint find (c : ascii) (s : string) : option nat :=
  match s with
  | EmptyString => None
  | String a s' => if Ascii.eqb a c then Some 0 else option_map S (find c s')
  end.

(** [s.find(c, start)] *)
Definition find_from (c : ascii) (start : nat) (s : string) : option nat :=
  option_map (Nat.add start) (find c (drop start s)).

(** [s.rfind(c)] *)
Fixpoint rfind (c : ascii) (s : string) : option nat :=
  match s with
  | EmptyString => None
  | String a s' =>
      match rfind c s' with
      | Some i => Some (S i)
      | None => if Ascii.eqb a c then Some 0 else None
      end
  end.

(** [c in s] *)
Definition contains (c : ascii) (s : string) : bool :=
  match find c s with Some _ => true | None => false end.

(** [s.endswith(suffix)] *)
Definition endswith (s suffix : string) : bool :=
  String.eqb (drop (String.length s - String.length suffix) s) suffix.

(** [s.lstrip(chars)], the set [chars] given by its membership test *)
Fixpoint lstrip (chars : ascii -> bool) (s : string) : string :=
  match s with
  | EmptyString => EmptyString
  | String a s' => if chars a then lstrip chars s' else s
  end.

(** [s.replace(b, "")] for a one-character [b] *)
Fixpoint remove (b : ascii) (s : string) : string :=
  match s with
  | EmptyString => EmptyString
  | String a s' => if Ascii.eqb a b then remove b s' else String a (remove b s')
  end.

(** [all(p(c) for c in s)] *)
Fixpoint all (p : ascii -> bool) (s : string) : bool :=
  match s with
  | EmptyString => true
  | String a s' => p a && all p s'
  end.

Definition is_upper (a : ascii) : bool :=
  Nat.leb 65 (nat_of_ascii a) && Nat.leb (nat_of_ascii a) 90.

Definition is_lower (a : ascii) : bool :=
  Nat.leb 97 (nat_of_ascii a) && Nat.leb (nat_of_ascii a) 122.

(** [c.isascii() and c.isalpha()] *)
Definition isascii_alpha (a : ascii) : bool := is_upper a || is_lower a.

(** [s.isascii()] *)
Definition isascii (s : string) : bool :=
  all (fun a => Nat.ltb (nat_of_ascii a) 128) s.

(** [s.lower()]; [urlsplit] applies it to scheme characters only, all of
    them ASCII. *)
Fixpoint lower (s : string) : string :=
  match s with
  | EmptyString => EmptyString
  | String a s' =>
      String (if is_upper a then ascii_of_nat (nat_of_ascii a + 32) else a)
             (lower s')
  end.

End PyStr.

(** ** [urllib.parse.urlparse]

    The handler reads only the [path] attribute of the result.  The two
    validators of the network location that need Unicode tables or an IP
    address parser are taken as parameters; [false] means that the
    validator raises [ValueError]. *)

Class NetlocChecks := {
  (** [_check_bracketed_netloc], called when the netloc holds both brackets *)
  check_bracketed_netloc : string -> bool;
  (** the NFKC test of [_checknetloc], reached for a non-ASCII netloc *)
  checknetloc_nfkc : string -> bool
}.

Module UrlParse.
Import PyStr.

Record ParseResult := {
  scheme : string;
  netloc : string;
  path : string;
  params : string;
  query : string;
  fragment : string
}.

Definition uses_params : list string :=
  [""; "ftp"; "hdl"; "prospero"; "http"; "imap"; "https"; "shttp"; "rtsp";
   "rtspu"; "sip"; "sips"; "mms"; "sftp"; "tel"].

Definition scheme_chars : string :=
  "abcdefghijklmnopqrstuvwxyzABCDEFGHIJKLMNOPQRSTUVWXYZ0123456789+-.".

(** membership in [_WHATWG_C0_CONTROL_OR_SPACE], the characters 0 to 32 *)
Definition c0_control_or_space (a : ascii) : bool :=
  Nat.leb (nat_of_ascii a) 32.

(** the loop over [_UNSAFE_URL_BYTES_TO_REMOVE] *)
Definition remove_unsafe (url : string) : string :=
  remove "010" (remove "013" (remove "009" url)).

(** The scheme test of [urlsplit]: the scheme found (lower-cased) and the
    rest of the url, or the empty scheme and the url unchanged. *)
Definition split_scheme (url : string) : string * string :=
  match find ":" url with
  | Some i =>
      if Nat.ltb 0 i
         && match url with
            | String a _ => isascii_alpha a
            | EmptyString => false
            end
         && all (fun c => contains c scheme_chars) (take i url)
      then (lower (take i url), drop (i + 1) url)
      else ("", url)
  | None => ("", url)
  end.

(** [min] of the positions found, as the loop of [_splitnetloc] keeps it *)
Definition min_delim (delim : nat) (wdelim : option nat) : nat :=
  match wdelim with
  | Some w => Nat.min delim w
  | None => delim
  end.

Definition _splitnetloc (url : string) (start : nat) : string * string :=
  let delim := String.length url in
  let delim := min_delim delim (find_from "/" start url) in
  let delim := min_delim delim (find_from "?" start url) in
  let delim := min_delim delim (find_from "#" start url) in
  (drop start (take delim url), drop delim url).

Definition _checknetloc `{NetlocChecks} (netloc : string) : bool :=
  if String.eqb netloc "" || isascii netloc then true
  else checknetloc_nfkc netloc.

(** [if c in url: url, rest = url.split(c, 1)]; [rest] stays empty when
    [c] is not in [url]. *)
Definition split_off (c : ascii) (url : string) : string * string :=
  match find c url with
  | Some i => (take i url, drop (i + 1) url)
  | None => (url, "")
  end.

(** [urlsplit(url)]: scheme, netloc, path, query, fragment; [None] when
    it raises [ValueError]. *)
Definition urlsplit `{NetlocChecks} (url : string)
  : option (string * string * string * string * string) :=
  let url := lstrip c0_control_or_space url in
  let url := remove_unsafe url in
  let '(scheme, url) := split_scheme url in
  let '(netloc, url) :=
    if String.eqb (take 2 url) "//" then _splitnetloc url 2 else ("", url) in
  if (contains "[" netloc && negb (contains "]" netloc))
     || (contains "]" netloc && negb (contains "[" netloc))
  then None
  else if contains "[" netloc && contains "]" netloc
          && negb (check_bracketed_netloc netloc)
  then None
  else
    let '(url, fragment) := split_off "#" url in
    let '(url, query) := split_off "?" url in
    if _checknetloc netloc
    then Some (scheme, netloc, url, query, fragment)
    else None.

(** [_splitparams(url)]; [urlparse] calls it when [';' in url].  [rfind]
    finds a position whenever ['/' in url], and [find] one in the other
    branch. *)
Definition _splitparams (url : string) : string * string :=
  if contains "/" url then
    match find_from ";" (match rfind "/" url with Some j => j | None => 0 end) url with
    | None => (url, "")
    | Some i => (take i url, drop (i + 1) url)
    end
  else
    match find ";" url with
    | Some i => (take i url, drop (i + 1) url)
    | None => (url, "")
    end.

Definition urlparse `{NetlocChecks} (url : string) : option ParseResult :=
  match urlsplit url with
  | None => None
  | Some (scheme, netloc, url, query, fragment) =>
      let '(url, params) :=
        if existsb (String.eqb scheme) uses_params && contains ";" url
        then _splitparams url
        else (url, "") in
      Some {| scheme := scheme; netloc := netloc; path := url;
              params := params; query := query; fragment := fragment |}
  end.

End UrlParse.

(** ** The filesystem, as the handler observes it *)

Inductive Entry :=
| File (data : string)
| Directory.

(** What [os.stat] finds at a path string, resolved against the working
    directory of the process; [None] when the call fails. *)
Record FS := { os_stat : string -> option Entry }.

(** [os.path.exists(p)] *)
Definition os_path_exists (fs : FS) (p : string) : bool :=
  match os_stat fs p with
  | Some _ => true
  | None => false
  end.

(** POSIX path resolution: a relative, non-empty path names the same entry
    with and without a leading [./]. *)
Definition posix_relative (fs : FS) : Prop :=
  forall c, c <> "" -> String.prefix "/" c = false ->
            os_stat fs ("./" ++ c) = os_stat fs c.

(** ** Requests, responses and the handler object *)

Record Response := {
  status : nat;
  response_headers : list (string * string);
  body : string
}.

Section Objects.

(** The request headers ([self.headers]) and the attributes of the
    handler that the request line does not set ([directory], [server],
    [client_address], ...). *)
Variables Headers Rest : Type.

(** [self] *)
Record Handler := {
  command : string;
  path : string;
  headers : Headers;
  rest : Rest
}.

(** [self.path = p] *)
Definition set_path (self : Handler) (p : string) : Handler :=
  {| command := command self; path := p;
     headers := headers self; rest := rest self |}.

(** A request as [parse_request] stores it in the handler. *)
Record Request := {
  request_command : string;
  request_path : string;
  request_headers : Headers
}.

Definition parse_request (self : Handler) (req : Request) : Handler :=
  {| command := request_command req; path := request_path req;
     headers := request_headers req; rest := rest self |}.

(** What a method call leaves behind: the handler and the response
    written, or the exception that escaped. *)
Inductive Outcome :=
| Responded (self : Handler) (r : Response)
| Raised (exc : string).

(** What the client observes of an outcome. *)
Definition observable (o : Outcome) : option Response :=
  match o with
  | Responded _ r => Some r
  | Raised _ => None
  end.

End Objects.

Arguments command {Headers Rest} _.
Arguments path {Headers Rest} _.
Arguments headers {Headers Rest} _.
Arguments rest {Headers Rest} _.
Arguments set_path {Headers Rest} _ _.
Arguments request_command {Headers} _.
Arguments request_path {Headers} _.
Arguments request_headers {Headers} _.
Arguments parse_request {Headers Rest} _ _.
Arguments Responded {Headers Rest} _ _.
Arguments Raised {Headers Rest} _.
Arguments observable {Headers Rest} _.

(** The responses a client receives when every request is handled on its
    own, up to the first request that ends the connection. *)
Fixpoint until_raise (os : list (option Response)) : list (option Response) :=
  match os with
  | [] => []
  | Some r :: os' => Some r :: until_raise os'
  | None :: _ => [None]
  end.

Inductive Route := ServeStatic | ServeFallback.

(** ** A document root to run the handler on

    The scenario of the specification: [index.html] and [style.css] in the
    working directory, and a small static-file mechanism in the place of
    [SimpleHTTPRequestHandler].  It follows [translate_path] and
    [send_head] for targets without percent escapes and dot segments; it
    compares no dates and writes no headers, and the body of a directory
    listing is left empty. *)

Module Reference.

#[local] Instance checks : NetlocChecks :=
  {| check_bracketed_netloc := fun _ => true;
     checknetloc_nfkc := fun _ => true |}.

Definition Headers := list (string * string).

Fixpoint strip_dot_slash (p : string) : string :=
  match p with
  | String "." (String "/" p') => strip_dot_slash p'
  | _ => p
  end.

Fixpoint lookup (table : list (string * Entry)) (p : string) : option Entry :=
  match table with
  | [] => None
  | (name, e) :: table' => if String.eqb name p then Some e else lookup table' p
  end.

Definition fs_of (table : list (string * Entry)) : FS :=
  {| os_stat := fun p => lookup table (strip_dot_slash p) |}.

Definition docroot : FS :=
  fs_of [("index.html", File "<app/>"); ("style.css", File "body{}");
         ("assets", Directory)].

(** a document root without the fallback document *)
Definition bare : FS := fs_of [("style.css", File "body{}")].

(** a document root that holds a file whose name starts with a dot *)
Definition dotted : FS :=
  fs_of [("index.html", File "<app/>"); (".xstyle.css", File "hidden{}")].

(** the document root of the scenario on a machine that has [/etc/passwd] *)
Definition rooted : FS :=
  {| os_stat := fun p =>
       if String.eqb p "/etc/passwd" then Some (File "root:x:0:0:")
       else os_stat docroot p |}.

(** [s.split(c)] *)
Fixpoint split (c : ascii) (s : string) : list string :=
  match s with
  | EmptyString => [EmptyString]
  | String a s' =>
      if Ascii.eqb a c then EmptyString :: split c s'
      else match split c s' with
           | w :: ws => String a w :: ws
           | [] => [String a EmptyString]
           end
  end.

(** ['/'.join(words)] *)
Fixpoint join (words : list string) : string :=
  match words with
  | [] => EmptyString
  | w :: ws =>
      match ws with
      | [] => w
      | _ :: _ => w ++ "/" ++ join ws
      end
  end.

(** the target without its query string and fragment *)
Definition abandon_query (target : string) : string :=
  fst (UrlParse.split_off "#" (fst (UrlParse.split_off "?" target))).

(** [translate_path], relative to the document root: the words between the
    separators, joined again; empty words and dot words are dropped. *)
Definition translate_path (target : string) : string :=
  join (filter (fun w => negb (String.eqb w "") && negb (String.eqb w ".")
                         && negb (String.eqb w ".."))
               (split "/" (abandon_query target))).

Definition trailing_slash (target : string) : bool :=
  PyStr.endswith (abandon_query target) "/".

Definition ok (data : string) : Response :=
  {| status := 200; response_headers := []; body := data |}.

Definition not_found : Response :=
  {| status := 404; response_headers := []; body := "File not found" |}.

Definition moved_permanently : Response :=
  {| status := 301; response_headers := []; body := "" |}.

Definition send_head (fs : FS) (self : Handler Headers unit) : Response :=
  let name := translate_path (path self) in
  let entry := if String.eqb name "" then Some Directory else os_stat fs name in
  let inside := fun page => if String.eqb name "" then page else name ++ "/" ++ page in
  match entry with
  | Some Directory =>
      if trailing_slash (path self) then
        match os_stat fs (inside "index.html"), os_stat fs (inside "index.htm") with
        | Some (File data), _ => ok data
        | _, Some (File data) => ok data
        | _, _ => ok ""
        end
      else moved_permanently
  | Some (File data) => if trailing_slash (path self) then not_found else ok data
  | None => not_found
  end.

Definition static_do_GET := send_head.

Definition static_do_HEAD (fs : FS) (self : Handler Headers unit) : Response :=
  let r := send_head fs self in
  {| status := status r; response_headers := response_headers r; body := "" |}.

Definition not_found_head : Response :=
  {| status := 404; response_headers := []; body := "" |}.

Definition send_error (code : nat) (self : Handler Headers unit) : Response :=
  {| status := code; response_headers := []; body := "" |}.

(** the handler object as a GET request for [target] leaves it parsed *)
Definition get (target : string) : Handler Headers unit :=
  {| command := "GET"; path := target; headers := []; rest := tt |}.

Definition request (cmd target : string) : Request Headers :=
  {| request_command := cmd; request_path := target; request_headers := [] |}.

End Reference.

(** ** The handler *)

Section Server.

Context `{NetlocChecks}.
Variables Headers Rest : Type.

(** The static-file mechanism, [http.server.SimpleHTTPRequestHandler]:
    its [do_GET] and [do_HEAD] as the response they write for the handler
    and the filesystem they read, and [send_error].  An exception that the
    mechanism itself lets escape is not part of this model; what is proved
    of a delegation is which request the mechanism is handed. *)
Variable SimpleHTTPRequestHandler_do_GET : FS -> Handler Headers Rest -> Response.
Variable SimpleHTTPRequestHandler_do_HEAD : FS -> Handler Headers Rest -> Response.
Variable send_error : nat -> Handler Headers Rest -> Response.

(** [SPAHTTPHandler.do_GET] *)
Definition do_GET (fs : FS) (self : Handler Headers Rest) : Outcome Headers Rest :=
  match UrlParse.urlparse (path self) with
  | None => Raised "ValueError"
  | Some url =>
      if os_path_exists fs (PyStr.drop 1 (UrlParse.path url))
         && negb (PyStr.endswith (UrlParse.path url) "/")
      then Responded self (SimpleHTTPRequestHandler_do_GET fs self)
      else
        let self := set_path self "/index.html" in
        Responded self (SimpleHTTPRequestHandler_do_GET fs self)
  end.

(** *** Classes and dispatch

    A class is the table of its [do_*] methods; a subclass looks a name
    up in its own table first. *)
Definition Method := FS -> Handler Headers Rest -> Outcome Headers Rest.
Definition Class := string -> option Method.

Definition SimpleHTTPRequestHandler : Class := fun name =>
  if String.eqb name "do_GET"
  then Some (fun fs self => Responded self (SimpleHTTPRequestHandler_do_GET fs self))
  else if String.eqb name "do_HEAD"
  then Some (fun fs self => Responded self (SimpleHTTPRequestHandler_do_HEAD fs self))
  else None.

Definition SPAHTTPHandler : Class := fun name =>
  if String.eqb name "do_GET" then Some do_GET
  else SimpleHTTPRequestHandler name.

(** [handle_one_request], from the point where the request is parsed:
    [mname = 'do_' + self.command], 501 when the class has no such
    method. *)
Definition handle_one_request (cls : Class) (fs : FS)
    (self : Handler Headers Rest) (req : Request Headers) : Outcome Headers Rest :=
  let self := parse_request self req in
  match cls ("do_" ++ command self) with
  | None => Responded self (send_error 501 self)
  | Some method => method fs self
  end.

(** [handle]: the requests of one connection, served by one handler
    object until an exception escapes. *)
Fixpoint handle (cls : Class) (fs : FS) (self : Handler Headers Rest)
                (reqs : list (Request Headers)) : list (Outcome Headers Rest) :=
  match reqs with
  | [] => []
  | req :: reqs' =>
      match handle_one_request cls fs self req with
      | Responded self' r => Responded self' r :: handle cls fs self' reqs'
      | Raised exc => [Raised exc]
      end
  end.

(** *** The decision rule in the words of the specification *)

(** Strip exactly one leading character. *)
Definition candidate (p : string) : string :=
  match p with
  | EmptyString => EmptyString
  | String _ p' => p'
  end.

(** The path ends with a trailing separator. *)
Fixpoint trailing_separator (p : string) : bool :=
  match p with
  | EmptyString => false
  | String a EmptyString => Ascii.eqb a "/"
  | String _ p' => trailing_separator p'
  end.

Definition route (fs : FS) (p : string) : Route :=
  if os_path_exists fs (candidate p) then
    if trailing_separator p then ServeFallback else ServeStatic
  else ServeFallback.

(** The static resource served as the request names it, or the fallback
    document served in its place. *)
Definition serve (fs : FS) (self : Handler Headers Rest) (r : Route)
  : Outcome Headers Rest :=
  match r with
  | ServeStatic => Responded self (SimpleHTTPRequestHandler_do_GET fs self)
  | ServeFallback =>
      Responded (set_path self "/index.html")
                (SimpleHTTPRequestHandler_do_GET fs (set_path self "/index.html"))
  end.

(** The static-file mechanism answers this request with the bytes of
    the regular file that the request path names under the document
    root. *)
Definition serves_file (fs : FS) (self : Handler Headers Rest) : Prop :=
  forall url data,
    UrlParse.urlparse (path self) = Some url ->
    os_stat fs ("." ++ UrlParse.path url) = Some (File data) ->
    body (SimpleHTTPRequestHandler_do_GET fs self) = data.

(** The static-file mechanism answers 404 when nothing is at the path of
    the request under the document root: for GET, and for HEAD. *)
Definition reports_missing (fs : FS) (self : Handler Headers Rest) : Prop :=
  os_stat fs ("." ++ path self) = None ->
  status (SimpleHTTPRequestHandler_do_GET fs self) = 404.

Definition head_reports_missing (fs : FS) (self : Handler Headers Rest) : Prop :=
  os_stat fs ("." ++ path self) = None ->
  status (SimpleHTTPRequestHandler_do_HEAD fs self) = 404.

(** The routing decision as a function of the request path and of the
    answer of the existence check, and of nothing else. *)
Definition decision (p : string) (entry_exists : bool) : Route :=
  if entry_exists then
    if trailing_separator p then ServeFallback else ServeStatic
  else ServeFallback.

(** The value of the condition of the [if] statement of [do_GET]: [true]
    on the branch of existing entries, [false] on the fallback branch, and
    [None] when [urlparse] raises before the condition is reached. *)
Definition do_GET_condition (fs : FS) (self : Handler Headers Rest) : option bool :=
  match UrlParse.urlparse (path self) with
  | None => None
  | Some url =>
      Some (os_path_exists fs (PyStr.drop 1 (UrlParse.path url))
            && negb (PyStr.endswith (UrlParse.path url) "/"))
  end.

(** *** Auxiliary notions for the analysis of [urlparse] *)

(** The characters that start a query string and a fragment. *)
Definition delimiter (d : ascii) : Prop := d = "?"%char \/ d = "#"%char.

(** The length of the network location: the position of the first of
    [/], [?] and [#]. *)
Fixpoint hostlen (s : string) : nat :=
  match s with
  | EmptyString => 0
  | String a s' =>
      if Ascii.eqb a "/" || Ascii.eqb a "?" || Ascii.eqb a "#" then 0
      else S (hostlen s')
  end.

(** The statement [if url[:2] == '//': netloc, url = _splitnetloc(url, 2)]. *)
Definition netloc_stage (url : string) : string * string :=
  if String.eqb (PyStr.take 2 url) "//" then UrlParse._splitnetloc url 2
  else ("", url).

(** [urlsplit] from the bracket tests on, for the scheme, the network
    location and the rest of the url found so far. *)
Definition urlsplit_tail (scheme netloc url : string)
  : option (string * string * string * string * string) :=
  if (PyStr.contains "[" netloc && negb (PyStr.contains "]" netloc))
     || (PyStr.contains "]" netloc && negb (PyStr.contains "[" netloc))
  then None
  else if PyStr.contains "[" netloc && PyStr.contains "]" netloc
          && negb (check_bracketed_netloc netloc)
  then None
  else
    let '(url, fragment) := UrlParse.split_off "#" url in
    let '(url, query) := UrlParse.split_off "?" url in
    if UrlParse._checknetloc netloc
    then Some (scheme, netloc, url, query, fragment)
    else None.

(** The path that [urlparse] returns when the scheme takes parameters. *)
Definition path_of_rest (u : string) : string :=
  let p := fst (UrlParse.split_off "?" (fst (UrlParse.split_off "#" u))) in
  fst (if PyStr.contains ";" p then UrlParse._splitparams p else (p, "")).

(** *** Shapes of request targets *)

(** The characters of [_UNSAFE_URL_BYTES_TO_REMOVE]. *)
Definition unsafe_bytes : string :=
  String "009" (String "013" (String "010" "")).

(** The characters that end a network location, and the unsafe ones. *)
Definition host_stops : string := "/?#" ++ unsafe_bytes.

(** The characters that end the path or start its parameters, and the
    unsafe ones. *)
Definition segment_stops : string := ";?#" ++ unsafe_bytes.

(** No character of [s] is one of [chars]. *)
Definition free_of (chars s : string) : bool :=
  PyStr.all (fun c => negb (PyStr.contains c chars)) s.

(** A scheme as [urlsplit] recognises it in front of a colon: a letter
    first, scheme characters throughout. *)
Definition is_scheme (s : string) : bool :=
  match s with
  | String a _ => PyStr.isascii_alpha a
  | EmptyString => false
  end
  && PyStr.all (fun c => PyStr.contains c UrlParse.scheme_chars) s.

(** A host name of ASCII characters without brackets, delimiters or unsafe
    characters. *)
Definition reg_name (host : string) : bool :=
  free_of host_stops host && free_of "[]" host && PyStr.isascii host.

(** ASCII characters, none of them a bracket. *)
Definition ascii_without_brackets (s : string) : bool :=
  PyStr.all (fun a => Nat.ltb (nat_of_ascii a) 128
                      && negb (Ascii.eqb a "[") && negb (Ascii.eqb a "]")) s.

(** *** Strings *)

Lemma drop_1_candidate (p : string) : PyStr.drop 1 p = candidate p.
Proof. destruct p; reflexivity. Qed.

Lemma endswith_separator (p : string) :
  PyStr.endswith p "/" = trailing_separator p.
Proof.
  unfold PyStr.endswith.
  induction p as [|a p IH]; [reflexivity|].
  destruct p as [|b p'].
  - cbn. destruct (Ascii.eqb a "/"); reflexivity.
  - cbn [String.length Nat.sub] in *. rewrite Nat.sub_0_r in *.
    cbn [PyStr.drop trailing_separator]. exact IH.
Qed.

Lemma find_app c a b :
  PyStr.find c (a ++ b)
  = match PyStr.find c a with
    | Some i => Some i
    | None => option_map (Nat.add (String.length a)) (PyStr.find c b)
    end.
Proof.
  induction a as [|x a IH]; cbn.
  - destruct (PyStr.find c b); reflexivity.
  - destruct (Ascii.eqb x c); [reflexivity|].
    rewrite IH. destruct (PyStr.find c a); [reflexivity|].
    destruct (PyStr.find c b); reflexivity.
Qed.

Lemma find_lt c a i : PyStr.find c a = Some i -> i < String.length a.
Proof.
  revert i. induction a as [|x a IH]; cbn; intros i Hi; [discriminate|].
  destruct (Ascii.eqb x c).
  - injection Hi as <-. lia.
  - destruct (PyStr.find c a) as [j|]; [|discriminate].
    injection Hi as <-. specialize (IH j eq_refl). lia.
Qed.

Lemma take_app_le i a b :
  i <= String.length a -> PyStr.take i (a ++ b) = PyStr.take i a.
Proof.
  revert i. induction a as [|x a IH]; intros [|i] Hi; cbn in *;
    try reflexivity; try lia.
  rewrite IH; [reflexivity|lia].
Qed.

Lemma drop_app_le i a b :
  i <= String.length a -> PyStr.drop i (a ++ b) = PyStr.drop i a ++ b.
Proof.
  revert i. induction a as [|x a IH]; intros [|i] Hi; cbn in *;
    try reflexivity; try lia.
  apply IH. lia.
Qed.

Lemma take_length a b : PyStr.take (String.length a) (a ++ b) = a.
Proof. induction a as [|x a IH]; cbn; [destruct b|rewrite IH]; reflexivity. Qed.

Lemma drop_length a b : PyStr.drop (String.length a) (a ++ b) = b.
Proof. induction a as [|x a IH]; cbn; [reflexivity|exact IH]. Qed.

Lemma take_app_ge k a b :
  PyStr.take (String.length a + k) (a ++ b) = a ++ PyStr.take k b.
Proof. induction a as [|x a IH]; cbn; [reflexivity|rewrite IH; reflexivity]. Qed.

Lemma all_app p a b : PyStr.all p (a ++ b) = PyStr.all p a && PyStr.all p b.
Proof.
  induction a as [|x a IH]; cbn; [reflexivity|].
  rewrite IH, andb_assoc. reflexivity.
Qed.

Lemma lstrip_app chars a d b :
  chars d = false ->
  PyStr.lstrip chars (a ++ String d b) = PyStr.lstrip chars a ++ String d b.
Proof.
  intros Hd. induction a as [|x a IH]; cbn.
  - rewrite Hd. reflexivity.
  - destruct (chars x); [exact IH|reflexivity].
Qed.

Lemma remove_app c a b :
  PyStr.remove c (a ++ b) = PyStr.remove c a ++ PyStr.remove c b.
Proof.
  induction a as [|x a IH]; cbn; [reflexivity|].
  destruct (Ascii.eqb x c); rewrite IH; reflexivity.
Qed.

(** *** A query string or fragment appended to a target

    [urlparse] finds the same scheme, network location and path in
    [f ++ "?" ++ q] and in [f ++ "#" ++ q] as in [f]. *)

Lemma clean_app f d q :
  delimiter d ->
  UrlParse.remove_unsafe (PyStr.lstrip UrlParse.c0_control_or_space (f ++ String d q))
  = UrlParse.remove_unsafe (PyStr.lstrip UrlParse.c0_control_or_space f)
    ++ String d (UrlParse.remove_unsafe q).
Proof.
  intros Hd. rewrite lstrip_app by (destruct Hd; subst; reflexivity).
  unfold UrlParse.remove_unsafe. rewrite !remove_app.
  destruct Hd; subst; reflexivity.
Qed.

Lemma split_scheme_app f d q :
  delimiter d ->
  UrlParse.split_scheme (f ++ String d q)
  = (fst (UrlParse.split_scheme f), snd (UrlParse.split_scheme f) ++ String d q).
Proof.
  intros Hd. unfold UrlParse.split_scheme. rewrite find_app.
  destruct (PyStr.find ":" f) as [i|] eqn:Hi.
  - pose proof (find_lt _ _ _ Hi) as Hlt.
    rewrite take_app_le, drop_app_le by lia.
    destruct f as [|a f']; [discriminate|]. cbn [append].
    destruct (_ && _ && _); reflexivity.
  - assert (Hfind : PyStr.find ":" (String d q) = option_map S (PyStr.find ":" q))
      by (destruct Hd; subst; reflexivity).
    rewrite Hfind. destruct (PyStr.find ":" q) as [j|]; [|reflexivity].
    cbn [option_map]. rewrite take_app_ge, all_app. cbn [PyStr.take PyStr.all].
    replace (PyStr.contains d UrlParse.scheme_chars) with false
      by (destruct Hd; subst; reflexivity).
    cbn [andb]. rewrite !andb_false_r. reflexivity.
Qed.

Lemma min_delim_0 o : UrlParse.min_delim 0 o = 0.
Proof. destruct o; reflexivity. Qed.

Lemma min_delim_S n o :
  UrlParse.min_delim (S n) (option_map S o) = S (UrlParse.min_delim n o).
Proof. destruct o; reflexivity. Qed.

Lemma min_delim_add2 n o :
  UrlParse.min_delim (S (S n)) (option_map (Nat.add 2) o)
  = S (S (UrlParse.min_delim n o)).
Proof. destruct o; reflexivity. Qed.

Lemma min_delim_hostlen s :
  UrlParse.min_delim
    (UrlParse.min_delim
       (UrlParse.min_delim (String.length s) (PyStr.find "/" s))
       (PyStr.find "?" s))
    (PyStr.find "#" s)
  = hostlen s.
Proof.
  induction s as [|a s IH]; [reflexivity|].
  cbn [String.length PyStr.find hostlen].
  destruct (Ascii.eqb a "/").
  { cbn. rewrite !min_delim_0. reflexivity. }
  rewrite min_delim_S.
  destruct (Ascii.eqb a "?").
  { cbn. rewrite min_delim_0. reflexivity. }
  rewrite min_delim_S.
  destruct (Ascii.eqb a "#"); [reflexivity|].
  rewrite min_delim_S, IH. reflexivity.
Qed.

Lemma splitnetloc_slashes s :
  UrlParse._splitnetloc (String "/" (String "/" s)) 2
  = (PyStr.take (hostlen s) s, PyStr.drop (hostlen s) s).
Proof.
  unfold UrlParse._splitnetloc, PyStr.find_from.
  cbn [PyStr.drop String.length].
  rewrite !min_delim_add2, min_delim_hostlen. reflexivity.
Qed.

Lemma hostlen_le s : hostlen s <= String.length s.
Proof.
  induction s as [|a s IH]; cbn; [lia|].
  destruct (_ || _ || _); lia.
Qed.

Lemma hostlen_app s d q :
  delimiter d -> hostlen (s ++ String d q) = hostlen s.
Proof.
  intros Hd. induction s as [|a s IH]; cbn.
  - destruct Hd; subst; reflexivity.
  - rewrite IH. reflexivity.
Qed.

Lemma netloc_stage_app g d q :
  delimiter d ->
  netloc_stage (g ++ String d q)
  = (fst (netloc_stage g), snd (netloc_stage g) ++ String d q).
Proof.
  intros Hd. unfold netloc_stage.
  destruct g as [|a [|b s]].
  - destruct Hd; subst; reflexivity.
  - cbn [append PyStr.take]. cbn.
    destruct (Ascii.eqb a "/"); [|reflexivity].
    destruct Hd; subst; reflexivity.
  - cbn [append PyStr.take].
    destruct (String.eqb_spec (String a (String b "")) "//") as [E|_];
      [|reflexivity].
    injection E as -> ->.
    rewrite !splitnetloc_slashes, (hostlen_app _ _ _ Hd). cbn [fst snd].
    rewrite take_app_le, drop_app_le by apply hostlen_le. reflexivity.
Qed.

Lemma fst_split_off_same c a b :
  fst (UrlParse.split_off c (a ++ String c b)) = fst (UrlParse.split_off c a).
Proof.
  unfold UrlParse.split_off. rewrite find_app.
  destruct (PyStr.find c a) as [i|] eqn:Hi.
  - cbn [fst]. apply take_app_le. pose proof (find_lt _ _ _ Hi). lia.
  - cbn [PyStr.find]. rewrite Ascii.eqb_refl. cbn [option_map fst].
    rewrite Nat.add_0_r. apply take_length.
Qed.

Lemma fst_split_off_found c a b i :
  PyStr.find c a = Some i ->
  fst (UrlParse.split_off c (a ++ b)) = fst (UrlParse.split_off c a).
Proof.
  intros Hi. unfold UrlParse.split_off. rewrite find_app, Hi. cbn [fst].
  apply take_app_le. pose proof (find_lt _ _ _ Hi). lia.
Qed.

Lemma fst_split_off_other c a d b :
  PyStr.find c a = None -> Ascii.eqb d c = false ->
  fst (UrlParse.split_off c (a ++ String d b))
  = a ++ String d (fst (UrlParse.split_off c b)).
Proof.
  intros Ha Hd. unfold UrlParse.split_off. rewrite find_app, Ha.
  cbn [PyStr.find]. rewrite Hd.
  destruct (PyStr.find c b) as [j|]; cbn [option_map fst]; [|reflexivity].
  rewrite take_app_ge. reflexivity.
Qed.

Lemma fst_split_off_none c a :
  PyStr.find c a = None -> fst (UrlParse.split_off c a) = a.
Proof. intros Ha. unfold UrlParse.split_off. rewrite Ha. reflexivity. Qed.

(** The path that the two statements [url.split('#', 1)] and
    [url.split('?', 1)] leave. *)
Lemma path_split_app r d q :
  delimiter d ->
  fst (UrlParse.split_off "?" (fst (UrlParse.split_off "#" (r ++ String d q))))
  = fst (UrlParse.split_off "?" (fst (UrlParse.split_off "#" r))).
Proof.
  intros [-> | ->].
  - destruct (PyStr.find "#" r) as [i|] eqn:Hi.
    + rewrite (fst_split_off_found _ _ _ _ Hi). reflexivity.
    + rewrite fst_split_off_other by (exact Hi || reflexivity).
      rewrite fst_split_off_same, (fst_split_off_none _ _ Hi). reflexivity.
  - rewrite fst_split_off_same. reflexivity.
Qed.

Lemma urlsplit_app f d q :
  delimiter d ->
  match UrlParse.urlsplit f with
  | None => UrlParse.urlsplit (f ++ String d q) = None
  | Some (sch, nl, p, _, _) =>
      exists qy fr, UrlParse.urlsplit (f ++ String d q) = Some (sch, nl, p, qy, fr)
  end.
Proof.
  intros Hd. unfold UrlParse.urlsplit.
  rewrite (clean_app _ _ _ Hd), (split_scheme_app _ _ _ Hd).
  destruct (UrlParse.split_scheme _) as [sch g]. cbn [fst snd].
  fold (netloc_stage g). fold (netloc_stage (g ++ String d (UrlParse.remove_unsafe q))).
  rewrite (netloc_stage_app _ _ _ Hd).
  destruct (netloc_stage g) as [nl r]. cbn [fst snd].
  destruct (_ || _); [reflexivity|].
  destruct (_ && _ && _); [reflexivity|].
  pose proof (path_split_app r d (UrlParse.remove_unsafe q) Hd) as Hp.
  destruct (UrlParse.split_off "#" (r ++ _)) as [u1 fr1].
  destruct (UrlParse.split_off "#" r) as [u2 fr2]. cbn [fst] in Hp.
  destruct (UrlParse.split_off "?" u1) as [p1 q1].
  destruct (UrlParse.split_off "?" u2) as [p2 q2]. cbn [fst] in Hp. subst p2.
  destruct (UrlParse._checknetloc nl); eauto.
Qed.

Lemma urlparse_app f d q :
  delimiter d ->
  match UrlParse.urlparse f with
  | None => UrlParse.urlparse (f ++ String d q) = None
  | Some url =>
      exists url', UrlParse.urlparse (f ++ String d q) = Some url'
                   /\ UrlParse.path url' = UrlParse.path url
  end.
Proof.
  intros Hd. unfold UrlParse.urlparse.
  pose proof (urlsplit_app f d q Hd) as Hsplit.
  destruct (UrlParse.urlsplit f) as [[[[[sch nl] p] qy] fr]|].
  - destruct Hsplit as (qy' & fr' & ->).
    destruct (if existsb (String.eqb sch) UrlParse.uses_params
                 && PyStr.contains ";" p
              then UrlParse._splitparams p else (p, "")) as [p' pa].
    eauto.
  - rewrite Hsplit. reflexivity.
Qed.

(** *** The two branches of [do_GET] *)

Lemma urlparse_index_html :
  UrlParse.urlparse "/index.html"
  = Some {| UrlParse.scheme := ""; UrlParse.netloc := "";
            UrlParse.path := "/index.html"; UrlParse.params := "";
            UrlParse.query := ""; UrlParse.fragment := "" |}.
Proof. reflexivity. Qed.

Lemma do_GET_route fs self url :
  UrlParse.urlparse (path self) = Some url ->
  do_GET fs self = serve fs self (route fs (UrlParse.path url)).
Proof.
  intros Hurl. unfold do_GET, route. rewrite Hurl.
  rewrite drop_1_candidate, endswith_separator.
  destruct (os_path_exists fs (candidate (UrlParse.path url)));
    destruct (trailing_separator (UrlParse.path url)); reflexivity.
Qed.

(** A direct request for the fallback document is answered with the
    mechanism's response for [/index.html], on either branch. *)
Lemma do_GET_index_html fs self :
  do_GET fs (set_path self "/index.html")
  = serve fs self ServeFallback.
Proof.
  rewrite (do_GET_route fs (set_path self "/index.html") _ urlparse_index_html).
  destruct (route fs _); reflexivity.
Qed.

Lemma route_fallback_trailing fs p :
  trailing_separator p = true -> route fs p = ServeFallback.
Proof.
  intros Ht. unfold route. rewrite Ht.
  destruct (os_path_exists fs (candidate p)); reflexivity.
Qed.

Lemma route_fallback_missing fs p :
  os_path_exists fs (candidate p) = false -> route fs p = ServeFallback.
Proof. intros He. unfold route. rewrite He. reflexivity. Qed.

Lemma route_static fs p :
  os_path_exists fs (candidate p) = true -> trailing_separator p = false ->
  route fs p = ServeStatic.
Proof. intros He Ht. unfold route. rewrite He, Ht. reflexivity. Qed.

(** A request path with one leading separator and the entry that
    [os.path.exists] is asked about. *)
Lemma exists_at_dot fs c :
  posix_relative fs -> c <> "" -> String.prefix "/" c = false ->
  os_path_exists fs (candidate ("/" ++ c))
  = match os_stat fs ("." ++ "/" ++ c) with Some _ => true | None => false end.
Proof.
  intros Hfs Hc Hrel. unfold os_path_exists. cbn.
  change (String "." (String "/" c)) with ("./" ++ c).
  rewrite (Hfs c Hc Hrel). reflexivity.
Qed.

Lemma route_decision fs p :
  route fs p = decision p (os_path_exists fs (PyStr.drop 1 p)).
Proof. rewrite drop_1_candidate. reflexivity. Qed.

(** [do_GET] by the value of its condition. *)
Lemma do_GET_by_condition fs self :
  do_GET fs self
  = match do_GET_condition fs self with
    | None => Raised "ValueError"
    | Some true => Responded self (SimpleHTTPRequestHandler_do_GET fs self)
    | Some false =>
        Responded (set_path self "/index.html")
          (SimpleHTTPRequestHandler_do_GET fs (set_path self "/index.html"))
    end.
Proof.
  unfold do_GET, do_GET_condition.
  destruct (UrlParse.urlparse (path self)) as [url|]; [|reflexivity].
  destruct (_ && _); reflexivity.
Qed.

Lemma do_GET_condition_route fs self url :
  UrlParse.urlparse (path self) = Some url ->
  do_GET_condition fs self
  = Some (match route fs (UrlParse.path url) with
          | ServeStatic => true
          | ServeFallback => false
          end).
Proof.
  intros Hurl. unfold do_GET_condition, route. rewrite Hurl.
  rewrite drop_1_candidate, endswith_separator.
  destruct (os_path_exists fs _), (trailing_separator _); reflexivity.
Qed.

Lemma method_name_GET (cmd : string) :
  String.eqb ("do_" ++ cmd) "do_GET" = String.eqb cmd "GET".
Proof. reflexivity. Qed.

Lemma SPAHTTPHandler_GET : SPAHTTPHandler "do_GET" = Some do_GET.
Proof. reflexivity. Qed.

Lemma SPAHTTPHandler_inherits (cmd : string) :
  cmd <> "GET" ->
  SPAHTTPHandler ("do_" ++ cmd) = SimpleHTTPRequestHandler ("do_" ++ cmd).
Proof.
  intros Hcmd. unfold SPAHTTPHandler. rewrite method_name_GET.
  destruct (String.eqb_spec cmd "GET") as [E|_]; [contradiction|reflexivity].
Qed.

Lemma handle_one_request_GET fs self req :
  request_command req = "GET" ->
  handle_one_request SPAHTTPHandler fs self req
  = do_GET fs (parse_request self req).
Proof.
  intros Hcmd. unfold handle_one_request.
  cbn [command parse_request]. rewrite Hcmd. reflexivity.
Qed.

(** Whatever method runs, the handler keeps the attributes that the
    request line does not set. *)
Lemma handle_one_request_rest fs self req self' r :
  handle_one_request SPAHTTPHandler fs self req = Responded self' r ->
  rest self' = rest self.
Proof.
  unfold handle_one_request, SPAHTTPHandler, SimpleHTTPRequestHandler, do_GET.
  destruct (String.eqb _ "do_GET").
  - destruct (UrlParse.urlparse _); [|discriminate].
    destruct (_ && _); intros [= <- _]; reflexivity.
  - destruct (String.eqb _ "do_HEAD"); intros [= <- _]; reflexivity.
Qed.

(** The handler state left by earlier requests is overwritten before the
    method is chosen. *)
Lemma handle_one_request_fresh cls fs self1 self2 req :
  rest self1 = rest self2 ->
  handle_one_request cls fs self1 req = handle_one_request cls fs self2 req.
Proof.
  intros Hrest. unfold handle_one_request, parse_request.
  rewrite Hrest. reflexivity.
Qed.

(** *** Properties of the router *)


(** C2: a request path that ends with the separator fails the condition of
    [do_GET] and is answered on the fallback branch, whatever the
    filesystem holds, also when a directory of that name exists: the path
    is rewritten to [/index.html] and the answer is the static-file
    mechanism's for it, which is also the answer to a direct request for
    [/index.html]. *)
Theorem C2_trailing_separator_forces_fallback fs self url :
  UrlParse.urlparse (path self) = Some url ->
  PyStr.endswith (UrlParse.path url) "/" = true ->
  do_GET_condition fs self = Some false
  /\ do_GET fs self = serve fs self ServeFallback
  /\ do_GET fs (set_path self "/index.html") = serve fs self ServeFallback.
Proof.
  intros Hurl Hend. rewrite endswith_separator in Hend.
  pose proof (route_fallback_trailing fs _ Hend) as Hroute.
  split; [|split].
  - rewrite (do_GET_condition_route _ _ _ Hurl), Hroute. reflexivity.
  - rewrite (do_GET_route _ _ _ Hurl), Hroute. reflexivity.
  - apply do_GET_index_html.
Qed.


(** C4, as the code has it: when the request path p is the separator
    followed by a relative candidate and nothing is at [.] + p, [do_GET]
    takes the fallback branch: the path is rewritten to [/index.html] and
    the answer is the static-file mechanism's for it, which is also the
    answer to a direct request for [/index.html].  The filesystem resolves
    paths as POSIX does. *)
Theorem C4_missing_entry_falls_back fs self url c :
  posix_relative fs ->
  UrlParse.urlparse (path self) = Some url ->
  UrlParse.path url = "/" ++ c -> String.prefix "/" c = false ->
  os_stat fs ("." ++ UrlParse.path url) = None ->
  do_GET_condition fs self = Some false
  /\ do_GET fs self = serve fs self ServeFallback
  /\ do_GET fs (set_path self "/index.html") = serve fs self ServeFallback.
Proof.
  intros Hfs Hurl Hp Hrel Hnone.
  assert (Hroute : route fs (UrlParse.path url) = ServeFallback).
  { rewrite Hp in *. destruct c as [|a c'].
    - apply route_fallback_trailing. reflexivity.
    - apply route_fallback_missing.
      rewrite exists_at_dot; auto; [|discriminate].
      rewrite Hnone. reflexivity. }
  split; [|split].
  - rewrite (do_GET_condition_route _ _ _ Hurl), Hroute. reflexivity.
  - rewrite (do_GET_route _ _ _ Hurl), Hroute. reflexivity.
  - apply do_GET_index_html.
Qed.

(** C5, as the code has it: with [index.html] in place, a direct request
    for [/index.html] passes the condition of [do_GET] and is delegated as
    it is; a request whose path is the separator followed by a relative
    candidate at which nothing exists fails the condition and is delegated
    as [/index.html]; the two responses are the same, and so are their
    bodies.  The filesystem resolves paths as POSIX does. *)
Theorem C5_roundtrip_index_html fs self target url c :
  posix_relative fs ->
  os_path_exists fs "index.html" = true ->
  UrlParse.urlparse target = Some url ->
  UrlParse.path url = "/" ++ c -> String.prefix "/" c = false ->
  os_stat fs ("." ++ UrlParse.path url) = None ->
  do_GET_condition fs (set_path self "/index.html") = Some true
  /\ do_GET_condition fs (set_path self target) = Some false
  /\ do_GET fs (set_path self "/index.html")
     = Responded (set_path self "/index.html")
         (SimpleHTTPRequestHandler_do_GET fs (set_path self "/index.html"))
  /\ do_GET fs (set_path self target)
     = Responded (set_path self "/index.html")
         (SimpleHTTPRequestHandler_do_GET fs (set_path self "/index.html"))
  /\ option_map body (observable (do_GET fs (set_path self "/index.html")))
     = option_map body (observable (do_GET fs (set_path self target))).
Proof.
  intros Hfs Hindex Hurl Hp Hrel Hnone.
  assert (Hroute : route fs (UrlParse.path url) = ServeFallback).
  { rewrite Hp in *. destruct c as [|a c'].
    - apply route_fallback_trailing. reflexivity.
    - apply route_fallback_missing.
      rewrite exists_at_dot; auto; [|discriminate].
      rewrite Hnone. reflexivity. }
  assert (Hidx : do_GET_condition fs (set_path self "/index.html") = Some true).
  { rewrite (do_GET_condition_route fs (set_path self "/index.html") _
               urlparse_index_html).
    rewrite route_static; [reflexivity|exact Hindex|reflexivity]. }
  assert (Htgt : do_GET_condition fs (set_path self target) = Some false).
  { rewrite (do_GET_condition_route fs (set_path self target) url Hurl), Hroute.
    reflexivity. }
  assert (H1 : do_GET fs (set_path self "/index.html")
               = Responded (set_path self "/index.html")
                   (SimpleHTTPRequestHandler_do_GET fs (set_path self "/index.html")))
    by (rewrite do_GET_by_condition, Hidx; reflexivity).
  assert (H2 : do_GET fs (set_path self target)
               = Responded (set_path self "/index.html")
                   (SimpleHTTPRequestHandler_do_GET fs (set_path self "/index.html")))
    by (rewrite do_GET_by_condition, Htgt; reflexivity).
  repeat split; try assumption.
  rewrite H1, H2. reflexivity.
Qed.

(** C6: the query string and the fragment of a request take no part in
    the existence check.  With a query string appended, the path that
    [urlparse] finds is the same, so is the branch taken, and a request that
    names an existing file still goes to the static-file mechanism, with
    the target as received. *)
Theorem C6_query_string_ignored fs self f d q url :
  delimiter d ->
  UrlParse.urlparse f = Some url ->
  exists url',
    UrlParse.urlparse (f ++ String d q) = Some url'
    /\ UrlParse.path url' = UrlParse.path url
    /\ do_GET fs (set_path self (f ++ String d q))
       = serve fs (set_path self (f ++ String d q)) (route fs (UrlParse.path url))
    /\ (route fs (UrlParse.path url) = ServeStatic ->
        do_GET fs (set_path self (f ++ String d q))
        = Responded (set_path self (f ++ String d q))
            (SimpleHTTPRequestHandler_do_GET fs (set_path self (f ++ String d q)))).
Proof.
  intros Hd Hurl. pose proof (urlparse_app f d q Hd) as Happ.
  rewrite Hurl in Happ. destruct Happ as (url' & Hurl' & Hpath).
  exists url'.
  assert (Hget : do_GET fs (set_path self (f ++ String d q))
                 = serve fs (set_path self (f ++ String d q))
                     (route fs (UrlParse.path url))).
  { rewrite <- Hpath. apply do_GET_route. exact Hurl'. }
  repeat split; try assumption.
  intros Hstatic. rewrite Hget, Hstatic. reflexivity.
Qed.


(** C8: on the fallback branch the router rewrites the path and hands the
    request over.  When [index.html] is missing the response is the 404 of
    the static-file mechanism, passed on as it is. *)
Theorem C8_missing_fallback_is_delegated fs self url :
  UrlParse.urlparse (path self) = Some url ->
  route fs (UrlParse.path url) = ServeFallback ->
  os_stat fs "./index.html" = None ->
  reports_missing fs (set_path self "/index.html") ->
  exists r,
    do_GET fs self = Responded (set_path self "/index.html") r
    /\ r = SimpleHTTPRequestHandler_do_GET fs (set_path self "/index.html")
    /\ status r = 404.
Proof.
  intros Hurl Hroute Hmissing Hbase.
  exists (SimpleHTTPRequestHandler_do_GET fs (set_path self "/index.html")).
  repeat split.
  - rewrite (do_GET_route _ _ _ Hurl), Hroute. reflexivity.
  - apply Hbase. exact Hmissing.
Qed.

(** C9: a GET request for [/] is served the fallback document.  The
    candidate is the empty string, and the outcome is the same whether or
    not [os.path.exists] holds of it. *)
Theorem C9_root_is_fallback fs self req :
  request_command req = "GET" ->
  request_path req = "/" ->
  PyStr.drop 1 (request_path req) = ""
  /\ handle_one_request SPAHTTPHandler fs self req
     = serve fs (parse_request self req) ServeFallback.
Proof.
  intros Hcmd Hroot. rewrite Hroot. split; [reflexivity|].
  rewrite (handle_one_request_GET _ _ _ Hcmd).
  assert (Hurl : exists url,
             UrlParse.urlparse (path (parse_request self req)) = Some url
             /\ UrlParse.path url = "/").
  { cbn [path parse_request]. rewrite Hroot. eexists. split; reflexivity. }
  destruct Hurl as (url & Hurl & Hp).
  rewrite (do_GET_route _ _ _ Hurl), Hp.
  rewrite route_fallback_trailing; reflexivity.
Qed.

(** C10: only [do_GET] is overridden.  Any other method is handled as the
    static-file mechanism handles it, with the request path as received; a
    HEAD request for a path at which nothing exists gets the mechanism's
    404 and not the headers of the fallback document. *)
Theorem C10_only_GET_is_rewritten fs self req :
  request_command req <> "GET" ->
  handle_one_request SPAHTTPHandler fs self req
  = handle_one_request SimpleHTTPRequestHandler fs self req
  /\ (request_command req = "HEAD" ->
      exists r,
        handle_one_request SPAHTTPHandler fs self req
        = Responded (parse_request self req) r
        /\ path (parse_request self req) = request_path req
        /\ r = SimpleHTTPRequestHandler_do_HEAD fs (parse_request self req)
        /\ (os_stat fs ("." ++ request_path req) = None ->
            head_reports_missing fs (parse_request self req) ->
            status r = 404)).
Proof.
  intros Hcmd.
  assert (Hsame : handle_one_request SPAHTTPHandler fs self req
                  = handle_one_request SimpleHTTPRequestHandler fs self req).
  { unfold handle_one_request. cbn [command parse_request].
    rewrite (SPAHTTPHandler_inherits _ Hcmd). reflexivity. }
  split; [exact Hsame|].
  intros Hhead.
  exists (SimpleHTTPRequestHandler_do_HEAD fs (parse_request self req)).
  repeat split.
  - rewrite Hsame. unfold handle_one_request. cbn [command parse_request].
    rewrite Hhead. reflexivity.
  - intros Hmissing Hbase. apply Hbase. exact Hmissing.
Qed.

(** *** More about strings *)

Lemma all_impl (p q : ascii -> bool) s :
  (forall a, p a = true -> q a = true) ->
  PyStr.all p s = true -> PyStr.all q s = true.
Proof.
  intros Hpq. induction s as [|a s IH]; cbn; [reflexivity|].
  intros Hall. apply andb_true_iff in Hall. destruct Hall as [Ha Hs].
  rewrite (Hpq _ Ha), (IH Hs). reflexivity.
Qed.

Lemma all_take p n s : PyStr.all p s = true -> PyStr.all p (PyStr.take n s) = true.
Proof.
  revert n. induction s as [|a s IH]; intros [|n]; cbn; try reflexivity.
  intros Hall. apply andb_true_iff in Hall. destruct Hall as [Ha Hs].
  rewrite Ha, (IH n Hs). reflexivity.
Qed.

Lemma all_drop p n s : PyStr.all p s = true -> PyStr.all p (PyStr.drop n s) = true.
Proof.
  revert n. induction s as [|a s IH]; intros [|n]; cbn; try reflexivity.
  - intros Hall. exact Hall.
  - intros Hall. apply andb_true_iff in Hall. apply IH, Hall.
Qed.

Lemma all_remove p c s :
  PyStr.all p s = true -> PyStr.all p (PyStr.remove c s) = true.
Proof.
  induction s as [|a s IH]; cbn; [reflexivity|].
  intros Hall. apply andb_true_iff in Hall. destruct Hall as [Ha Hs].
  destruct (Ascii.eqb a c); cbn; [|rewrite Ha]; apply IH, Hs.
Qed.

Lemma all_lstrip p chars s :
  PyStr.all p s = true -> PyStr.all p (PyStr.lstrip chars s) = true.
Proof.
  induction s as [|a s IH]; cbn; [reflexivity|].
  intros Hall. destruct (chars a); [|exact Hall].
  apply andb_true_iff in Hall. apply IH, Hall.
Qed.

Lemma find_none_all d s :
  PyStr.all (fun a => negb (Ascii.eqb a d)) s = true -> PyStr.find d s = None.
Proof.
  induction s as [|a s IH]; cbn; [reflexivity|].
  intros Hall. apply andb_true_iff in Hall. destruct Hall as [Ha Hs].
  apply negb_true_iff in Ha. rewrite Ha, (IH Hs). reflexivity.
Qed.

Lemma find_none_free chars d s :
  free_of chars s = true -> PyStr.contains d chars = true ->
  PyStr.find d s = None.
Proof.
  intros Hfree Hd. apply find_none_all. revert Hfree. apply all_impl.
  intros a Ha. apply negb_true_iff. apply negb_true_iff in Ha.
  destruct (Ascii.eqb_spec a d) as [->|_]; [congruence|reflexivity].
Qed.

Lemma find_none_scheme d s :
  PyStr.all (fun c => PyStr.contains c UrlParse.scheme_chars) s = true ->
  PyStr.contains d UrlParse.scheme_chars = false ->
  PyStr.find d s = None.
Proof.
  intros Hall Hd. apply find_none_all. revert Hall. apply all_impl.
  intros a Ha. apply negb_true_iff.
  destruct (Ascii.eqb_spec a d) as [->|_]; [congruence|reflexivity].
Qed.

Lemma contains_none d s : PyStr.find d s = None -> PyStr.contains d s = false.
Proof. intros Hd. unfold PyStr.contains. rewrite Hd. reflexivity. Qed.

Lemma remove_none d s : PyStr.find d s = None -> PyStr.remove d s = s.
Proof.
  induction s as [|a s IH]; cbn; [reflexivity|].
  destruct (Ascii.eqb a d); [discriminate|].
  destruct (PyStr.find d s); [discriminate|].
  intros _. rewrite IH; reflexivity.
Qed.

Lemma find_app_none d a b :
  PyStr.find d a = None -> PyStr.find d b = None -> PyStr.find d (a ++ b) = None.
Proof. intros Ha Hb. rewrite find_app, Ha, Hb. reflexivity. Qed.

Lemma find_drop_none d n s :
  PyStr.find d s = None -> PyStr.find d (PyStr.drop n s) = None.
Proof.
  revert n. induction s as [|a s IH]; intros [|n]; cbn; try reflexivity.
  - intros Hd. exact Hd.
  - destruct (Ascii.eqb a d); [discriminate|].
    destruct (PyStr.find d s); [discriminate|]. intros _. apply IH. reflexivity.
Qed.

Lemma length_drop n s :
  String.length (PyStr.drop n s) = String.length s - n.
Proof.
  revert n. induction s as [|a s IH]; intros [|n]; cbn; try reflexivity.
  apply IH.
Qed.

Lemma drop_app_ge k a b :
  PyStr.drop (String.length a + k) (a ++ b) = PyStr.drop k b.
Proof. induction a as [|x a IH]; cbn; [reflexivity|exact IH]. Qed.

Lemma rfind_none d s : PyStr.find d s = None -> PyStr.rfind d s = None.
Proof.
  induction s as [|a s IH]; cbn; [reflexivity|].
  destruct (Ascii.eqb a d); [discriminate|].
  destruct (PyStr.find d s); [discriminate|].
  intros _. rewrite IH; reflexivity.
Qed.

Lemma rfind_app_none d a b :
  PyStr.find d b = None -> PyStr.rfind d (a ++ b) = PyStr.rfind d a.
Proof.
  intros Hb. induction a as [|x a IH]; cbn.
  - apply rfind_none, Hb.
  - rewrite IH. reflexivity.
Qed.

Lemma rfind_lt d s j : PyStr.rfind d s = Some j -> j < String.length s.
Proof.
  revert j. induction s as [|a s IH]; cbn; intros j Hj; [discriminate|].
  destruct (PyStr.rfind d s) as [i|].
  - injection Hj as <-. specialize (IH i eq_refl). lia.
  - destruct (Ascii.eqb a d); [|discriminate]. injection Hj as <-. lia.
Qed.

Lemma rfind_head d s : exists j, PyStr.rfind d (String d s) = Some j.
Proof.
  cbn. destruct (PyStr.rfind d s) as [i|]; [eauto|].
  rewrite Ascii.eqb_refl. eauto.
Qed.

Lemma remove_unsafe_app a b :
  UrlParse.remove_unsafe (a ++ b)
  = UrlParse.remove_unsafe a ++ UrlParse.remove_unsafe b.
Proof. unfold UrlParse.remove_unsafe. rewrite !remove_app. reflexivity. Qed.

Lemma remove_unsafe_none s :
  PyStr.find "009" s = None -> PyStr.find "013" s = None ->
  PyStr.find "010" s = None -> UrlParse.remove_unsafe s = s.
Proof.
  intros Ht Hr Hn. unfold UrlParse.remove_unsafe.
  rewrite (remove_none _ _ Ht), (remove_none _ _ Hr), (remove_none _ _ Hn).
  reflexivity.
Qed.

(** *** The stages of [urlsplit] *)

Lemma urlsplit_stages url :
  UrlParse.urlsplit url
  = let '(scheme, u) :=
      UrlParse.split_scheme
        (UrlParse.remove_unsafe (PyStr.lstrip UrlParse.c0_control_or_space url)) in
    let '(netloc, u) := netloc_stage u in
    urlsplit_tail scheme netloc u.
Proof. reflexivity. Qed.

Lemma split_scheme_slash s :
  UrlParse.split_scheme (String "/" s) = ("", String "/" s).
Proof.
  unfold UrlParse.split_scheme. cbn [PyStr.find]. cbn [Ascii.eqb Bool.eqb].
  destruct (PyStr.find ":" s); cbn [option_map]; [|reflexivity].
  rewrite andb_false_r. reflexivity.
Qed.

Lemma netloc_stage_slash s :
  String.prefix "/" s = false ->
  netloc_stage (String "/" s) = ("", String "/" s).
Proof.
  intros Hs. unfold netloc_stage.
  destruct s as [|a s]; [reflexivity|].
  assert (Ha : Ascii.eqb a "/" = false).
  { destruct (Ascii.eqb_spec a "/") as [->|_]; [|reflexivity].
    destruct s; vm_compute in Hs; discriminate Hs. }
  cbn [PyStr.take String.eqb]. rewrite Ha.
  cbn [Ascii.eqb Bool.eqb andb]. reflexivity.
Qed.

Lemma alpha_not_c0 a :
  PyStr.isascii_alpha a = true -> UrlParse.c0_control_or_space a = false.
Proof.
  unfold PyStr.isascii_alpha, PyStr.is_upper, PyStr.is_lower,
    UrlParse.c0_control_or_space.
  intros Ha. apply Nat.leb_gt.
  apply orb_true_iff in Ha.
  destruct Ha as [Ha|Ha]; apply andb_true_iff in Ha; destruct Ha as [Hlo _];
    apply Nat.leb_le in Hlo; lia.
Qed.

Lemma is_scheme_inv sch :
  is_scheme sch = true ->
  exists a sch', sch = String a sch'
                 /\ PyStr.isascii_alpha a = true
                 /\ PyStr.all (fun c => PyStr.contains c UrlParse.scheme_chars) sch = true.
Proof.
  unfold is_scheme. intros Hs. apply andb_true_iff in Hs.
  destruct Hs as [Ha Hall]. destruct sch as [|a sch']; [discriminate|]. eauto.
Qed.

Lemma clean_scheme sch x :
  is_scheme sch = true ->
  UrlParse.remove_unsafe (PyStr.lstrip UrlParse.c0_control_or_space (sch ++ x))
  = sch ++ UrlParse.remove_unsafe x.
Proof.
  intros Hs. destruct (is_scheme_inv _ Hs) as (a & sch' & -> & Ha & Hall).
  cbn [append PyStr.lstrip]. rewrite (alpha_not_c0 _ Ha).
  change (String a (sch' ++ x)) with (String a sch' ++ x).
  rewrite remove_unsafe_app.
  rewrite (remove_unsafe_none (String a sch'));
    [reflexivity|apply (find_none_scheme _ _ Hall); reflexivity..].
Qed.

Lemma split_scheme_colon sch x :
  is_scheme sch = true ->
  UrlParse.split_scheme (sch ++ String ":" x) = (PyStr.lower sch, x).
Proof.
  intros Hs. destruct (is_scheme_inv _ Hs) as (a & sch' & Heq & Ha & Hall).
  unfold UrlParse.split_scheme. rewrite find_app.
  rewrite (find_none_scheme ":" _ Hall) by reflexivity.
  cbn [PyStr.find]. rewrite Ascii.eqb_refl. cbn [option_map].
  rewrite Nat.add_0_r, take_length, drop_app_ge. cbn [PyStr.drop].
  rewrite Hall, andb_true_r.
  rewrite Heq at 1 2. cbn [append String.length]. rewrite Ha. reflexivity.
Qed.

Lemma hostlen_free host d r :
  free_of host_stops host = true ->
  Ascii.eqb d "/" || Ascii.eqb d "?" || Ascii.eqb d "#" = true ->
  hostlen (host ++ String d r) = String.length host.
Proof.
  intros Hfree Hd. induction host as [|a host IH]; cbn [append hostlen String.length].
  - rewrite Hd. reflexivity.
  - cbn in Hfree. apply andb_true_iff in Hfree. destruct Hfree as [Ha Hhost].
    apply negb_true_iff in Ha.
    assert (Hno : Ascii.eqb a "/" || Ascii.eqb a "?" || Ascii.eqb a "#" = false).
    { destruct (Ascii.eqb_spec a "/") as [->|_]; [discriminate Ha|].
      destruct (Ascii.eqb_spec a "?") as [->|_]; [discriminate Ha|].
      destruct (Ascii.eqb_spec a "#") as [->|_]; [discriminate Ha|].
      reflexivity. }
    rewrite Hno, (IH Hhost). reflexivity.
Qed.

Lemma netloc_stage_host host r :
  free_of host_stops host = true ->
  netloc_stage (String "/" (String "/" (host ++ String "/" r)))
  = (host, String "/" r).
Proof.
  intros Hfree. unfold netloc_stage.
  change (String.eqb (PyStr.take 2 (String "/" (String "/" (host ++ String "/" r)))) "//")
    with true.
  cbv iota. rewrite splitnetloc_slashes, (hostlen_free _ _ _ Hfree) by reflexivity.
  rewrite take_length, drop_length. reflexivity.
Qed.

Lemma remove_unsafe_free s :
  free_of host_stops s = true -> UrlParse.remove_unsafe s = s.
Proof.
  intros Hfree.
  apply remove_unsafe_none; apply (find_none_free _ _ _ Hfree); reflexivity.
Qed.

(** A target in absolute form: scheme, [://], host, and a path that starts
    with the separator. *)
Lemma urlsplit_absolute sch host rest :
  is_scheme sch = true -> free_of host_stops host = true ->
  UrlParse.urlsplit (sch ++ "://" ++ host ++ String "/" rest)
  = urlsplit_tail (PyStr.lower sch) host (String "/" (UrlParse.remove_unsafe rest)).
Proof.
  intros Hs Hfree. rewrite urlsplit_stages, (clean_scheme _ _ Hs).
  change ("://" ++ host ++ String "/" rest)
    with ("://" ++ (host ++ String "/" rest)).
  rewrite remove_unsafe_app.
  change (UrlParse.remove_unsafe "://") with "://".
  rewrite remove_unsafe_app, (remove_unsafe_free _ Hfree).
  change (UrlParse.remove_unsafe (String "/" rest))
    with (String "/" (UrlParse.remove_unsafe rest)).
  change ("://" ++ host ++ String "/" (UrlParse.remove_unsafe rest))
    with (String ":" (String "/" (String "/"
            (host ++ String "/" (UrlParse.remove_unsafe rest))))).
  rewrite (split_scheme_colon _ _ Hs), (netloc_stage_host _ _ Hfree).
  reflexivity.
Qed.

(** A target in origin form: the separator, then something that does not
    start with a second one. *)
Lemma urlsplit_origin rest :
  String.prefix "/" (UrlParse.remove_unsafe rest) = false ->
  UrlParse.urlsplit (String "/" rest)
  = urlsplit_tail "" "" (String "/" (UrlParse.remove_unsafe rest)).
Proof.
  intros Hrest. rewrite urlsplit_stages.
  change (UrlParse.remove_unsafe
            (PyStr.lstrip UrlParse.c0_control_or_space (String "/" rest)))
    with (String "/" (UrlParse.remove_unsafe rest)).
  rewrite split_scheme_slash, (netloc_stage_slash _ Hrest). reflexivity.
Qed.

Lemma urlsplit_tail_plain sc nl u :
  PyStr.contains "[" nl = false -> PyStr.contains "]" nl = false ->
  PyStr.isascii nl = true ->
  urlsplit_tail sc nl u
  = Some (sc, nl,
          fst (UrlParse.split_off "?" (fst (UrlParse.split_off "#" u))),
          snd (UrlParse.split_off "?" (fst (UrlParse.split_off "#" u))),
          snd (UrlParse.split_off "#" u)).
Proof.
  intros Hopen Hclose Hascii. unfold urlsplit_tail, UrlParse._checknetloc.
  rewrite Hopen, Hclose, Hascii, orb_true_r. cbn [andb orb negb].
  destruct (UrlParse.split_off "#" u) as [u1 fr]. cbn [fst snd].
  destruct (UrlParse.split_off "?" u1) as [p q]. reflexivity.
Qed.

Lemma urlparse_plain t sc nl u :
  UrlParse.urlsplit t = urlsplit_tail sc nl u ->
  PyStr.contains "[" nl = false -> PyStr.contains "]" nl = false ->
  PyStr.isascii nl = true ->
  existsb (String.eqb sc) UrlParse.uses_params = true ->
  exists url, UrlParse.urlparse t = Some url
              /\ UrlParse.path url = path_of_rest u.
Proof.
  intros Hsplit Hopen Hclose Hascii Hparams.
  unfold UrlParse.urlparse, path_of_rest.
  rewrite Hsplit, (urlsplit_tail_plain _ _ _ Hopen Hclose Hascii), Hparams.
  cbn [andb].
  destruct (if PyStr.contains ";" _ then _ else _) as [p' ps]. eauto.
Qed.

(** [_splitparams] on a path whose last segment carries parameters. *)
Lemma splitparams_last_segment c ps :
  PyStr.find ";" c = None -> PyStr.find "/" ps = None ->
  UrlParse._splitparams (String "/" (c ++ String ";" ps)) = (String "/" c, ps).
Proof.
  intros Hc Hps. unfold UrlParse._splitparams.
  change (PyStr.contains "/" (String "/" (c ++ String ";" ps))) with true.
  cbv iota.
  change (String "/" (c ++ String ";" ps)) with (String "/" c ++ String ";" ps).
  assert (Hsemi : PyStr.find "/" (String ";" ps) = None).
  { cbn [PyStr.find]. change (Ascii.eqb ";" "/") with false. cbv iota.
    rewrite Hps. reflexivity. }
  rewrite (rfind_app_none _ _ _ Hsemi).
  destruct (rfind_head "/" c) as [j Hj]. rewrite Hj.
  pose proof (rfind_lt _ _ _ Hj) as Hlt.
  unfold PyStr.find_from. rewrite drop_app_le by lia.
  assert (Hnone : PyStr.find ";" (PyStr.drop j (String "/" c)) = None).
  { apply find_drop_none. cbn [PyStr.find].
    change (Ascii.eqb "/" ";") with false. cbv iota. rewrite Hc. reflexivity. }
  rewrite find_app, Hnone. cbn [PyStr.find]. rewrite Ascii.eqb_refl.
  cbn [option_map]. rewrite length_drop.
  replace (j + (String.length (String "/" c) - j + 0))
    with (String.length (String "/" c)) by lia.
  rewrite take_length, drop_app_ge. reflexivity.
Qed.

Lemma split_scheme_all p url :
  PyStr.all p url = true ->
  PyStr.all p (snd (UrlParse.split_scheme url)) = true.
Proof.
  intros Hall. unfold UrlParse.split_scheme.
  destruct (PyStr.find ":" url); [|exact Hall].
  destruct (_ && _ && _); [apply all_drop|]; exact Hall.
Qed.

Lemma netloc_stage_all p url :
  PyStr.all p url = true -> PyStr.all p (fst (netloc_stage url)) = true.
Proof.
  intros Hall. unfold netloc_stage, UrlParse._splitnetloc.
  destruct (String.eqb _ "//"); [|reflexivity].
  cbn [fst]. apply all_drop, all_take, Hall.
Qed.

(** *** Further properties of [do_GET] and of the dispatch *)

Lemma method_name_HEAD (cmd : string) :
  String.eqb ("do_" ++ cmd) "do_HEAD" = String.eqb cmd "HEAD".
Proof. reflexivity. Qed.

Lemma trailing_separator_tail a rest :
  rest <> "" -> trailing_separator (String a rest) = trailing_separator rest.
Proof. destruct rest; [contradiction|reflexivity]. Qed.

(** X1: whenever [do_GET] answers, the answer is the static-file
    mechanism's for the handler it leaves behind, and the URL path of that
    handler has no trailing separator.  The mechanism is never asked for a
    directory by its trailing-separator name. *)
Theorem X1_never_delegates_trailing_separator fs self self' r :
  do_GET fs self = Responded self' r ->
  r = SimpleHTTPRequestHandler_do_GET fs self'
  /\ exists url',
       UrlParse.urlparse (path self') = Some url'
       /\ PyStr.endswith (UrlParse.path url') "/" = false.
Proof.
  unfold do_GET.
  destruct (UrlParse.urlparse (path self)) as [url|] eqn:Hurl; [|discriminate].
  destruct (os_path_exists fs _ && negb _) eqn:Hcond; intros [= <- <-].
  - split; [reflexivity|]. exists url. split; [exact Hurl|].
    apply andb_true_iff in Hcond. destruct Hcond as [_ Hend].
    apply negb_true_iff in Hend. exact Hend.
  - split; [reflexivity|]. eexists. split; [apply urlparse_index_html|].
    reflexivity.
Qed.

(** X2: [do_GET] run again on the handler it left behind gives the same
    handler and the same response: the rewritten path is not rewritten
    further. *)
Theorem X2_do_GET_idempotent fs self self' r :
  do_GET fs self = Responded self' r ->
  do_GET fs self' = Responded self' r.
Proof.
  unfold do_GET at 1.
  destruct (UrlParse.urlparse (path self)) as [url|] eqn:Hurl; [|discriminate].
  destruct (os_path_exists fs _ && negb _) eqn:Hcond; intros [= <- <-].
  - unfold do_GET. rewrite Hurl, Hcond. reflexivity.
  - apply do_GET_index_html.
Qed.

(** X3: for a target that is empty or begins with its query string or
    fragment, the URL path is empty, so is the candidate, and the branch is
    the answer of [os.path.exists] on the empty string. *)
Theorem X3_empty_path fs self :
  (path self = "" \/ exists d q, delimiter d /\ path self = String d q) ->
  do_GET fs self
  = serve fs self (if os_path_exists fs "" then ServeStatic else ServeFallback).
Proof.
  intros Hpath.
  assert (Hurl : exists url, UrlParse.urlparse (path self) = Some url
                             /\ UrlParse.path url = "").
  { destruct Hpath as [-> | (d & q & Hd & ->)].
    - eexists. split; reflexivity.
    - pose proof (urlparse_app "" d q Hd) as Happ.
      change (UrlParse.urlparse "") with
        (Some {| UrlParse.scheme := ""; UrlParse.netloc := "";
                 UrlParse.path := ""; UrlParse.params := "";
                 UrlParse.query := ""; UrlParse.fragment := "" |}) in Happ.
      exact Happ. }
  destruct Hurl as (url & Hurl & Hp).
  rewrite (do_GET_route _ _ _ Hurl), Hp. reflexivity.
Qed.

(** X4: the first character of the URL path takes no part in the decision.
    Two requests whose paths differ in their first character only are sent
    down the same branch. *)
Theorem X4_first_character_ignored fs self1 self2 url1 url2 a b rest :
  rest <> "" ->
  UrlParse.urlparse (path self1) = Some url1 ->
  UrlParse.path url1 = String a rest ->
  UrlParse.urlparse (path self2) = Some url2 ->
  UrlParse.path url2 = String b rest ->
  exists r,
    do_GET fs self1 = serve fs self1 r /\ do_GET fs self2 = serve fs self2 r.
Proof.
  intros Hrest Hurl1 Hp1 Hurl2 Hp2.
  exists (route fs (String a rest)). split.
  - rewrite (do_GET_route _ _ _ Hurl1), Hp1. reflexivity.
  - rewrite (do_GET_route _ _ _ Hurl2), Hp2. f_equal.
    unfold route. cbn [candidate].
    rewrite !(trailing_separator_tail _ _ Hrest). reflexivity.
Qed.


(** X6: a target in absolute form whose host holds one kind of bracket
    without the other makes [urlparse] raise [ValueError]; [do_GET] lets it
    escape, whatever the filesystem holds, and hands nothing to the
    static-file mechanism. *)
Theorem X6_unmatched_bracket_raises fs self sch host rest :
  is_scheme sch = true ->
  free_of host_stops host = true ->
  Bool.eqb (PyStr.contains "[" host) (PyStr.contains "]" host) = false ->
  path self = sch ++ "://" ++ host ++ "/" ++ rest ->
  do_GET fs self = Raised "ValueError".
Proof.
  intros Hs Hfree Hbr Hpath. unfold do_GET, UrlParse.urlparse.
  rewrite Hpath.
  change (sch ++ "://" ++ host ++ "/" ++ rest)
    with (sch ++ "://" ++ host ++ String "/" rest).
  rewrite (urlsplit_absolute _ _ _ Hs Hfree). unfold urlsplit_tail.
  destruct (PyStr.contains "[" host), (PyStr.contains "]" host);
    try discriminate Hbr; reflexivity.
Qed.

(** X7: parameters after a semicolon in the last segment of the path take
    no part in the decision: the entry looked for is the one named by the
    path in front of the semicolon. *)
Theorem X7_path_parameters_ignored fs self c ps :
  free_of segment_stops c = true ->
  String.prefix "/" c = false ->
  free_of host_stops ps = true ->
  path self = "/" ++ c ++ ";" ++ ps ->
  do_GET fs self = serve fs self (route fs ("/" ++ c)).
Proof.
  intros Hc Hrel Hps Hpath.
  assert (Hfind : forall d,
             PyStr.contains d segment_stops = true ->
             PyStr.contains d host_stops = true ->
             PyStr.find d (c ++ String ";" ps) = None).
  { intros d Hd1 Hd2. apply find_app_none.
    - apply (find_none_free _ _ _ Hc Hd1).
    - cbn [PyStr.find].
      destruct (Ascii.eqb_spec ";" d) as [<-|_]; [discriminate Hd2|].
      rewrite (find_none_free _ _ _ Hps Hd2). reflexivity. }
  assert (Hurl : exists url, UrlParse.urlparse (path self) = Some url
                             /\ UrlParse.path url = "/" ++ c).
  { rewrite Hpath.
    change ("/" ++ c ++ ";" ++ ps) with (String "/" (c ++ String ";" ps)).
    assert (Hclean : UrlParse.remove_unsafe (c ++ String ";" ps)
                     = c ++ String ";" ps)
      by (apply remove_unsafe_none; apply Hfind; reflexivity).
    assert (Hrest : String.prefix "/" (UrlParse.remove_unsafe (c ++ String ";" ps))
                    = false).
    { rewrite Hclean. destruct c as [|a c']; [reflexivity|].
      cbn [append]. destruct c'; exact Hrel. }
    unfold UrlParse.urlparse.
    rewrite (urlsplit_origin _ Hrest), Hclean.
    rewrite urlsplit_tail_plain by reflexivity.
    assert (Hhash : UrlParse.split_off "#" (String "/" (c ++ String ";" ps))
                    = (String "/" (c ++ String ";" ps), "")).
    { unfold UrlParse.split_off. cbn [PyStr.find].
      change (Ascii.eqb "/" "#") with false. cbv iota.
      rewrite Hfind by reflexivity. reflexivity. }
    assert (Hquery : UrlParse.split_off "?" (String "/" (c ++ String ";" ps))
                     = (String "/" (c ++ String ";" ps), "")).
    { unfold UrlParse.split_off. cbn [PyStr.find].
      change (Ascii.eqb "/" "?") with false. cbv iota.
      rewrite Hfind by reflexivity. reflexivity. }
    rewrite Hhash. cbn [fst snd]. rewrite Hquery. cbn [fst snd].
    assert (Hsemi : PyStr.contains ";" (String "/" (c ++ String ";" ps)) = true).
    { unfold PyStr.contains. cbn [PyStr.find].
      change (Ascii.eqb "/" ";") with false. cbv iota.
      rewrite find_app, (find_none_free _ _ _ Hc) by reflexivity.
      cbn [PyStr.find]. rewrite Ascii.eqb_refl. reflexivity. }
    rewrite Hsemi.
    change (existsb (String.eqb "") UrlParse.uses_params) with true.
    cbn [andb].
    rewrite splitparams_last_segment.
    - eexists. split; reflexivity.
    - apply (find_none_free _ _ _ Hc). reflexivity.
    - apply (find_none_free _ _ _ Hps). reflexivity. }
  destruct Hurl as (url & Hurl & Hp).
  rewrite (do_GET_route _ _ _ Hurl), Hp. reflexivity.
Qed.

(** X8: a target in absolute form, with a scheme that takes parameters and
    a plain host, is sent down the same branch as the target made of its
    path alone: scheme and host take no part in the decision. *)
Theorem X8_absolute_form_routed_by_path fs self sch host rest :
  is_scheme sch = true ->
  existsb (String.eqb (PyStr.lower sch)) UrlParse.uses_params = true ->
  reg_name host = true ->
  String.prefix "/" (UrlParse.remove_unsafe rest) = false ->
  exists r,
    do_GET fs (set_path self (sch ++ "://" ++ host ++ "/" ++ rest))
    = serve fs (set_path self (sch ++ "://" ++ host ++ "/" ++ rest)) r
    /\ do_GET fs (set_path self ("/" ++ rest))
       = serve fs (set_path self ("/" ++ rest)) r.
Proof.
  intros Hs Hparams Hhost Hrest.
  unfold reg_name in Hhost. apply andb_true_iff in Hhost.
  destruct Hhost as [Hhost Hascii]. apply andb_true_iff in Hhost.
  destruct Hhost as [Hfree Hbr].
  assert (Hopen : PyStr.contains "[" host = false)
    by (apply contains_none, (find_none_free _ _ _ Hbr); reflexivity).
  assert (Hclose : PyStr.contains "]" host = false)
    by (apply contains_none, (find_none_free _ _ _ Hbr); reflexivity).
  destruct (urlparse_plain _ _ _ _ (urlsplit_absolute sch host rest Hs Hfree)
              Hopen Hclose Hascii Hparams) as (url1 & Hurl1 & Hp1).
  destruct (urlparse_plain _ _ _ _ (urlsplit_origin rest Hrest)
              eq_refl eq_refl eq_refl eq_refl) as (url2 & Hurl2 & Hp2).
  exists (route fs (path_of_rest (String "/" (UrlParse.remove_unsafe rest)))).
  split.
  - rewrite <- Hp1. apply do_GET_route. exact Hurl1.
  - rewrite <- Hp2. apply do_GET_route. exact Hurl2.
Qed.

(** X9: on a target made of ASCII characters other than brackets
    [urlparse] does not raise: [do_GET] reaches its condition and hands the
    request to the static-file mechanism on one of its two branches. *)
Theorem X9_plain_target_is_delegated fs self :
  ascii_without_brackets (path self) = true ->
  exists url,
    UrlParse.urlparse (path self) = Some url
    /\ do_GET fs self = serve fs self (route fs (UrlParse.path url)).
Proof.
  intros Hplain. unfold ascii_without_brackets in Hplain.
  assert (Hurl : exists url, UrlParse.urlparse (path self) = Some url).
  { unfold UrlParse.urlparse. rewrite urlsplit_stages.
    pose proof (split_scheme_all _ _
                  (all_remove _ "010" _ (all_remove _ "013" _ (all_remove _ "009" _
                     (all_lstrip _ UrlParse.c0_control_or_space _ Hplain)))))
      as Hg.
    fold (UrlParse.remove_unsafe
            (PyStr.lstrip UrlParse.c0_control_or_space (path self))) in Hg.
    destruct (UrlParse.split_scheme _) as [sc g]. cbn [snd] in Hg.
    pose proof (netloc_stage_all _ _ Hg) as Hnl.
    destruct (netloc_stage g) as [nl u]. cbn [fst] in Hnl.
    rewrite urlsplit_tail_plain.
    - destruct (if _ && _ then _ else _) as [p' ps]. eauto.
    - apply contains_none, find_none_all. revert Hnl. apply all_impl.
      intros a Ha. apply andb_true_iff in Ha. destruct Ha as [Ha _].
      apply andb_true_iff in Ha. apply Ha.
    - apply contains_none, find_none_all. revert Hnl. apply all_impl.
      intros a Ha. apply andb_true_iff in Ha. apply Ha.
    - revert Hnl. apply all_impl.
      intros a Ha. apply andb_true_iff in Ha. destruct Ha as [Ha _].
      apply andb_true_iff in Ha. apply Ha. }
  destruct Hurl as (url & Hurl).
  exists url. split; [exact Hurl|]. apply do_GET_route. exact Hurl.
Qed.

(** X10: for a target made of the separator and of characters that start
    no query, fragment or parameters, the entry looked for is the rest of
    the target as it stands; percent escapes are not decoded. *)
Theorem X10_plain_path_taken_literally fs self c :
  free_of segment_stops c = true ->
  String.prefix "/" c = false ->
  path self = "/" ++ c ->
  do_GET fs self
  = serve fs self
      (if os_path_exists fs c && negb (PyStr.endswith ("/" ++ c) "/")
       then ServeStatic else ServeFallback).
Proof.
  intros Hc Hrel Hpath.
  assert (Hclean : UrlParse.remove_unsafe c = c)
    by (apply remove_unsafe_none; apply (find_none_free _ _ _ Hc); reflexivity).
  assert (Hsplit : forall d, PyStr.contains d segment_stops = true ->
                             Ascii.eqb "/" d = false ->
                             UrlParse.split_off d (String "/" c) = (String "/" c, "")).
  { intros d Hd Hne. unfold UrlParse.split_off. cbn [PyStr.find].
    rewrite Hne, (find_none_free _ _ _ Hc Hd). reflexivity. }
  assert (Hurl : exists url, UrlParse.urlparse (path self) = Some url
                             /\ UrlParse.path url = "/" ++ c).
  { rewrite Hpath. change ("/" ++ c) with (String "/" c).
    unfold UrlParse.urlparse.
    rewrite urlsplit_origin by (rewrite Hclean; exact Hrel).
    rewrite Hclean, urlsplit_tail_plain by reflexivity.
    rewrite (Hsplit "#"%char) by reflexivity. cbn [fst snd].
    rewrite (Hsplit "?"%char) by reflexivity. cbn [fst snd].
    assert (Hsemi : PyStr.contains ";" (String "/" c) = false).
    { apply contains_none. cbn [PyStr.find].
      change (Ascii.eqb "/" ";") with false. cbv iota.
      rewrite (find_none_free _ _ _ Hc) by reflexivity. reflexivity. }
    rewrite Hsemi, andb_false_r. eexists. split; reflexivity. }
  destruct Hurl as (url & Hurl & Hp).
  unfold do_GET. rewrite Hurl, Hp.
  change (PyStr.drop 1 ("/" ++ c)) with c.
  destruct (os_path_exists fs c && negb (PyStr.endswith ("/" ++ c) "/"));
    reflexivity.
Qed.

End Server.

Arguments do_GET {H Headers Rest} _ _ _.
Arguments do_GET_condition {H Headers Rest} _ _.
Arguments SimpleHTTPRequestHandler {Headers Rest} _ _ _.
Arguments SPAHTTPHandler {H Headers Rest} _ _ _.
Arguments handle_one_request {Headers Rest} _ _ _ _ _.
Arguments handle {Headers Rest} _ _ _ _ _.
Arguments serve {Headers Rest} _ _ _ _.
Arguments serves_file {H Headers Rest} _ _ _.
Arguments reports_missing {Headers Rest} _ _ _.
Arguments head_reports_missing {Headers Rest} _ _ _.

(** ** The scenario of the specification *)

Module Scenario.
Import Reference.

#[local] Existing Instance checks.

Lemma fs_of_posix_relative table : posix_relative (fs_of table).
Proof. intros c _ _. reflexivity. Qed.

Lemma serves_style_css : serves_file static_do_GET docroot (get "/style.css").
Proof.
  intros url data Hurl Hfile.
  vm_compute in Hurl. injection Hurl as <-.
  vm_compute in Hfile. injection Hfile as <-. reflexivity.
Qed.

(** [/style.css] is served as the file it names. *)
Example get_style_css :
  handle_one_request send_error (SPAHTTPHandler static_do_GET static_do_HEAD)
    docroot (get "") (request "GET" "/style.css")
  = Responded (get "/style.css") (ok "body{}").
Proof. reflexivity. Qed.

(** A client-side route gets the entry document. *)
Example get_dashboard_settings :
  handle_one_request send_error (SPAHTTPHandler static_do_GET static_do_HEAD)
    docroot (get "") (request "GET" "/dashboard/settings")
  = Responded (get "/index.html") (ok "<app/>").
Proof. reflexivity. Qed.

Example get_dashboard_slash :
  handle_one_request send_error (SPAHTTPHandler static_do_GET static_do_HEAD)
    docroot (get "") (request "GET" "/dashboard/")
  = Responded (get "/index.html") (ok "<app/>").
Proof. reflexivity. Qed.

(** The trailing separator forces the fallback although [style.css]
    exists. *)
Example get_style_css_slash :
  handle_one_request send_error (SPAHTTPHandler static_do_GET static_do_HEAD)
    docroot (get "") (request "GET" "/style.css/")
  = Responded (get "/index.html") (ok "<app/>").
Proof. reflexivity. Qed.

(** [urlparse] rejects an unbalanced bracket in the network location, and
    [do_GET] lets the exception escape. *)
Example get_unbalanced_bracket :
  do_GET static_do_GET docroot (get "http://[/") = Raised "ValueError".
Proof. reflexivity. Qed.

(** *** The properties of the router at requests of the scenario *)


Lemma C2_trailing_separator_forces_fallback_witness :
  do_GET_condition docroot (get "/assets/") = Some false
  /\ do_GET static_do_GET docroot (get "/assets/")
     = Responded (get "/index.html") (ok "<app/>")
  /\ do_GET static_do_GET docroot (get "/index.html")
     = Responded (get "/index.html") (ok "<app/>").
Proof.
  exact (C2_trailing_separator_forces_fallback _ _ static_do_GET
           docroot (get "/assets/")
           {| UrlParse.scheme := ""; UrlParse.netloc := "";
              UrlParse.path := "/assets/"; UrlParse.params := "";
              UrlParse.query := ""; UrlParse.fragment := "" |}
           eq_refl eq_refl).
Defined.


Lemma C4_missing_entry_falls_back_witness :
  do_GET_condition docroot (get "/dashboard/settings") = Some false
  /\ do_GET static_do_GET docroot (get "/dashboard/settings")
     = Responded (get "/index.html") (ok "<app/>")
  /\ do_GET static_do_GET docroot (get "/index.html")
     = Responded (get "/index.html") (ok "<app/>").
Proof.
  exact (C4_missing_entry_falls_back _ _ static_do_GET docroot
           (get "/dashboard/settings")
           {| UrlParse.scheme := ""; UrlParse.netloc := "";
              UrlParse.path := "/dashboard/settings"; UrlParse.params := "";
              UrlParse.query := ""; UrlParse.fragment := "" |}
           "dashboard/settings"
           (fs_of_posix_relative _) eq_refl eq_refl eq_refl eq_refl).
Defined.

Lemma C5_roundtrip_index_html_witness :
  do_GET_condition docroot (get "/index.html") = Some true
  /\ do_GET_condition docroot (get "/bogus-route") = Some false
  /\ do_GET static_do_GET docroot (get "/index.html")
     = Responded (get "/index.html") (ok "<app/>")
  /\ do_GET static_do_GET docroot (get "/bogus-route")
     = Responded (get "/index.html") (ok "<app/>")
  /\ option_map body (observable (do_GET static_do_GET docroot (get "/index.html")))
     = option_map body (observable (do_GET static_do_GET docroot (get "/bogus-route"))).
Proof.
  exact (C5_roundtrip_index_html _ _ static_do_GET docroot (get "")
           "/bogus-route"
           {| UrlParse.scheme := ""; UrlParse.netloc := "";
              UrlParse.path := "/bogus-route"; UrlParse.params := "";
              UrlParse.query := ""; UrlParse.fragment := "" |}
           "bogus-route"
           (fs_of_posix_relative _) eq_refl eq_refl eq_refl eq_refl eq_refl).
Defined.

Lemma C6_query_string_ignored_witness :
  do_GET static_do_GET docroot (get "/style.css?v=1")
  = Responded (get "/style.css?v=1") (ok "body{}").
Proof.
  destruct (C6_query_string_ignored _ _ static_do_GET docroot (get "")
              "/style.css" "?" "v=1" _ (or_introl eq_refl) eq_refl)
    as (url' & _ & _ & _ & Hstatic).
  etransitivity; [apply Hstatic|]; reflexivity.
Defined.

Lemma C8_missing_fallback_is_delegated_witness :
  exists r,
    do_GET static_do_GET bare (get "/dashboard")
    = Responded (get "/index.html") r
    /\ r = static_do_GET bare (get "/index.html")
    /\ status r = 404.
Proof.
  eapply (C8_missing_fallback_is_delegated _ _ static_do_GET bare
            (get "/dashboard")).
  - reflexivity.
  - reflexivity.
  - reflexivity.
  - intros _. reflexivity.
Defined.

Lemma C9_root_is_fallback_witness :
  PyStr.drop 1 "/" = ""
  /\ handle_one_request send_error (SPAHTTPHandler static_do_GET static_do_HEAD)
       docroot (get "") (request "GET" "/")
     = Responded (get "/index.html") (ok "<app/>").
Proof.
  destruct (C9_root_is_fallback _ _ static_do_GET static_do_HEAD send_error
              docroot (get "") (request "GET" "/") eq_refl eq_refl)
    as [Hcand Hget].
  split; [exact Hcand|].
  etransitivity; [exact Hget|]; reflexivity.
Defined.

Lemma C10_only_GET_is_rewritten_witness :
  handle_one_request send_error (SPAHTTPHandler static_do_GET static_do_HEAD)
    docroot (get "") (request "HEAD" "/dashboard")
  = Responded (parse_request (get "") (request "HEAD" "/dashboard"))
      not_found_head.
Proof.
  destruct (C10_only_GET_is_rewritten _ _ static_do_GET static_do_HEAD
              send_error docroot (get "") (request "HEAD" "/dashboard"))
    as [_ Hhead]; [discriminate|].
  destruct (Hhead eq_refl) as (r & Hr & _ & -> & _).
  exact Hr.
Defined.


(** *** Requests at which the statements of the specification fail *)



(** C4 as stated: nothing is at [.] + p for p = [xstyle.css], and the
    response is the mechanism's 404 for [xstyle.css], because the entry
    tested is [style.css]; nothing is at [.] + p for the path
    p = [//etc/passwd] of the target [http://h//etc/passwd], and the
    response is the mechanism's 404, because the entry tested is
    [/etc/passwd].  A direct request for [/index.html] is answered with the
    document. *)
Lemma C4_missing_entry_falls_back_counterexample :
  (exists url,
     UrlParse.urlparse "xstyle.css" = Some url
     /\ os_stat docroot ("." ++ UrlParse.path url) = None
     /\ do_GET static_do_GET docroot (get "xstyle.css")
        = Responded (get "xstyle.css") not_found
     /\ do_GET static_do_GET docroot (get "/index.html")
        = Responded (get "/index.html") (ok "<app/>")
     /\ observable (do_GET static_do_GET docroot (get "xstyle.css"))
        <> observable (do_GET static_do_GET docroot (get "/index.html")))
  /\ (exists url,
        UrlParse.urlparse "http://h//etc/passwd" = Some url
        /\ UrlParse.path url = "//etc/passwd"
        /\ os_stat rooted ("." ++ UrlParse.path url) = None
        /\ do_GET static_do_GET rooted (get "http://h//etc/passwd")
           = Responded (get "http://h//etc/passwd") not_found
        /\ do_GET static_do_GET rooted (get "/index.html")
           = Responded (get "/index.html") (ok "<app/>")
        /\ observable (do_GET static_do_GET rooted (get "http://h//etc/passwd"))
           <> observable (do_GET static_do_GET rooted (get "/index.html"))).
Proof.
  split; eexists; repeat split; try reflexivity;
    intros Heq; vm_compute in Heq; discriminate Heq.
Defined.

(** C5 as stated: [index.html] exists and the direct request passes the
    condition; nothing is named [xindex.html], at [.] + p or under the
    document root, and the request for it passes the condition too, since
    the entry tested is [index.html]; its response is the mechanism's 404
    for [xindex.html], whose body is not the document. *)
Lemma C5_roundtrip_index_html_counterexample :
  exists url,
    UrlParse.urlparse "xindex.html" = Some url
    /\ UrlParse.path url = "xindex.html"
    /\ os_stat docroot (UrlParse.path url) = None
    /\ os_stat docroot ("." ++ UrlParse.path url) = None
    /\ os_stat docroot ("./" ++ UrlParse.path url) = None
    /\ do_GET_condition docroot (get "/index.html") = Some true
    /\ do_GET_condition docroot (get "xindex.html") = Some true
    /\ do_GET static_do_GET docroot (get "/index.html")
       = Responded (get "/index.html") (ok "<app/>")
    /\ do_GET static_do_GET docroot (get "xindex.html")
       = Responded (get "xindex.html") not_found
    /\ body (ok "<app/>") <> body not_found.
Proof.
  eexists. repeat split; try reflexivity. discriminate.
Defined.

(** *** Further properties at requests of the scenario *)

Lemma X1_never_delegates_trailing_separator_witness :
  ok "<app/>" = static_do_GET docroot (get "/index.html")
  /\ exists url',
       UrlParse.urlparse (path (get "/index.html")) = Some url'
       /\ PyStr.endswith (UrlParse.path url') "/" = false.
Proof.
  exact (X1_never_delegates_trailing_separator _ _ static_do_GET docroot
           (get "/assets/") (get "/index.html") (ok "<app/>") eq_refl).
Defined.

Lemma X2_do_GET_idempotent_witness :
  do_GET static_do_GET docroot (get "/index.html")
  = Responded (get "/index.html") (ok "<app/>").
Proof.
  exact (X2_do_GET_idempotent _ _ static_do_GET docroot
           (get "/dashboard") (get "/index.html") (ok "<app/>") eq_refl).
Defined.

Lemma X3_empty_path_witness :
  do_GET static_do_GET docroot (get "?v=1")
  = Responded (get "/index.html") (ok "<app/>").
Proof.
  etransitivity.
  - apply (X3_empty_path _ _ static_do_GET docroot (get "?v=1")).
    right. exists "?"%char, "v=1". split; [left|]; reflexivity.
  - reflexivity.
Defined.

Lemma X4_first_character_ignored_witness :
  exists r,
    do_GET static_do_GET docroot (get "/style.css")
    = serve static_do_GET docroot (get "/style.css") r
    /\ do_GET static_do_GET docroot (get "xstyle.css")
       = serve static_do_GET docroot (get "xstyle.css") r.
Proof.
  eapply (X4_first_character_ignored _ _ static_do_GET docroot
            (get "/style.css") (get "xstyle.css") _ _ "/" "x" "style.css").
  - discriminate.
  - reflexivity.
  - reflexivity.
  - reflexivity.
  - reflexivity.
Defined.


Lemma X6_unmatched_bracket_raises_witness :
  do_GET static_do_GET docroot (get "http://[/") = Raised "ValueError".
Proof.
  apply (X6_unmatched_bracket_raises _ _ static_do_GET docroot
           (get "http://[/") "http" "[" ""); reflexivity.
Defined.

Lemma X7_path_parameters_ignored_witness :
  do_GET static_do_GET docroot (get "/style.css;v=2")
  = Responded (get "/style.css;v=2") not_found.
Proof.
  etransitivity.
  - apply (X7_path_parameters_ignored _ _ static_do_GET docroot
             (get "/style.css;v=2") "style.css" "v=2"); reflexivity.
  - reflexivity.
Defined.

Lemma X8_absolute_form_routed_by_path_witness :
  exists r,
    do_GET static_do_GET docroot (get "http://localhost:8000/style.css")
    = serve static_do_GET docroot (get "http://localhost:8000/style.css") r
    /\ do_GET static_do_GET docroot (get "/style.css")
       = serve static_do_GET docroot (get "/style.css") r.
Proof.
  apply (X8_absolute_form_routed_by_path _ _ static_do_GET docroot (get "")
           "http" "localhost:8000" "style.css"); reflexivity.
Defined.

Lemma X9_plain_target_is_delegated_witness :
  exists url,
    UrlParse.urlparse "/style.css?v=1" = Some url
    /\ do_GET static_do_GET docroot (get "/style.css?v=1")
       = serve static_do_GET docroot (get "/style.css?v=1")
           (route docroot (UrlParse.path url)).
Proof.
  apply (X9_plain_target_is_delegated _ _ static_do_GET docroot
           (get "/style.css?v=1")).
  reflexivity.
Defined.

Lemma X10_plain_path_taken_literally_witness :
  do_GET static_do_GET docroot (get "/style%2Ecss")
  = Responded (get "/index.html") (ok "<app/>").
Proof.
  etransitivity.
  - apply (X10_plain_path_taken_literally _ _ static_do_GET docroot
             (get "/style%2Ecss") "style%2Ecss"); reflexivity.
  - reflexivity.
Defined.

End Scenario.
